(** * vtkTexturedSphereSource: the textured UV-sphere tessellation

    A shallow embedding of [Filters/Sources/vtkTexturedSphereSource.cxx]
    (constructor and [RequestData]) and the properties of the mesh it
    generates.

    Modelling conventions.
    - The C++ [int] and [vtkIdType] values are integers of [Z].  Signed
      overflow is undefined behaviour in C++: [generate] describes the
      runs in which every [int] expression is representable.
      [RequestData_run] is the same code with the [int] type and the loop
      tests made explicit: it stops as [Undefined] at the first [int]
      expression that overflows and needs fuel for its loops; it returns
      the mesh of [generate] when 3*numPts fits an [int].
    - The C++ [double] values are real numbers of [R] in [generate]: the
      theorems on coordinates say which expression of the source is
      stored at which position, and state facts that do not depend on how
      a [double] rounds.  The module [IEEE] evaluates the expressions of
      one turn of the loops in binary64, and their storage in binary32,
      to show where the rounding matters.
    - The VTK containers ([vtkPoints], [vtkFloatArray], [vtkCellArray])
      are lists; the [InsertNext...] calls append at the end. *)

From Equations Require Import Equations.
From Stdlib Require Import ZArith List Lia Reals Lra Permutation.
From Stdlib Require PrimFloat SpecFloat FloatOps.
Import ListNotations.

Open Scope Z_scope.

(** ** Loops *)

(** [for (i = i0; i < bound; i++) s = body i s], with the loop test
    evaluated at every turn.  The distance to the bound decreases. *)
Equations? for_lt {St : Type} (i bound : Z) (body : Z -> St -> St) (s : St)
  : St by wf (Z.to_nat (bound - i)) lt :=
  for_lt i bound body s with Z_lt_dec i bound := {
    | left _ := for_lt (i + 1) bound body (body i s);
    | right _ := s }.
Proof. lia. Qed.

(** [for (i = i0; i <= bound; i++) s = body i s]. *)
Equations? for_le {St : Type} (i bound : Z) (body : Z -> St -> St) (s : St)
  : St by wf (Z.to_nat (bound + 1 - i)) lt :=
  for_le i bound body s with Z_le_dec i bound := {
    | left _ := for_le (i + 1) bound body (body i s);
    | right _ := s }.
Proof. lia. Qed.

(** ** Data model *)

Definition vec3 : Type := R * R * R.
Definition vec2 : Type := R * R.

(** A triangle cell: the three point ids of [pts[3]]. *)
Definition cell : Type := Z * Z * Z.

(** [vtkAlgorithm::SINGLE_PRECISION] and [vtkAlgorithm::DOUBLE_PRECISION]. *)
Inductive DesiredOutputPrecision := SINGLE_PRECISION | DOUBLE_PRECISION.

(** The data type of the output points, [VTK_FLOAT] or [VTK_DOUBLE]. *)
Inductive DataType := VTK_FLOAT | VTK_DOUBLE.

(** The members of [vtkTexturedSphereSource], as the constructor
    initialises them and [PrintSelf] prints them (the class is declared in
    vtkTexturedSphereSource.h). *)
Record vtkTexturedSphereSource := {
  Radius : R;
  ThetaResolution : Z;
  PhiResolution : Z;
  Theta : R;
  Phi : R;
  OutputPointsPrecision : DesiredOutputPrecision
}.

(** The output [vtkPolyData]: points, point normals, texture coordinates
    and triangle cells. *)
Record vtkPolyData := {
  Points : list vec3;
  PointsDataType : DataType;
  Normals : list vec3;
  TCoords : list vec2;
  Polys : list cell
}.

Definition InsertNextPoint (x : vec3) (o : vtkPolyData) : vtkPolyData :=
  {| Points := Points o ++ [x]; PointsDataType := PointsDataType o;
     Normals := Normals o; TCoords := TCoords o; Polys := Polys o |}.

Definition InsertNextNormal (x : vec3) (o : vtkPolyData) : vtkPolyData :=
  {| Points := Points o; PointsDataType := PointsDataType o;
     Normals := Normals o ++ [x]; TCoords := TCoords o; Polys := Polys o |}.

Definition InsertNextTCoord (tc : vec2) (o : vtkPolyData) : vtkPolyData :=
  {| Points := Points o; PointsDataType := PointsDataType o;
     Normals := Normals o; TCoords := TCoords o ++ [tc]; Polys := Polys o |}.

Definition InsertNextCell (pts : cell) (o : vtkPolyData) : vtkPolyData :=
  {| Points := Points o; PointsDataType := PointsDataType o;
     Normals := Normals o; TCoords := TCoords o; Polys := Polys o ++ [pts] |}.

(** ** The constructor *)

(** [vtkTexturedSphereSource::vtkTexturedSphereSource(int res)]. *)
Definition New (res : Z) : vtkTexturedSphereSource :=
  let res := if res <? 4 then 4 else res in
  {| Radius := 0.5%R;
     ThetaResolution := res;
     PhiResolution := res;
     Theta := 0%R;
     Phi := 0%R;
     OutputPointsPrecision := SINGLE_PRECISION |}.

(** ** vtkMath *)

(** Modelled from the spec: [vtkMath::Pi()] is declared in vtkMath.h,
    which is not part of the sources; it is the constant pi. *)
Definition Pi : R := PI.

(** Modelled from the spec: [vtkMath::Norm(x)] is declared in vtkMath.h,
    which is not part of the sources; it is the Euclidean norm of the
    3-vector, the "point norm" of the specification. *)
Definition Norm (x : vec3) : R :=
  let '(x0, x1, x2) := x in sqrt (x0 * x0 + x1 * x1 + x2 * x2)%R.

(** ** RequestData *)

Section RequestData.
Variable this : vtkTexturedSphereSource.

(** The sizes computed at the start of [RequestData].  They are passed to
    [Allocate] and [AllocateEstimate] only, which reserve memory and leave
    the contents of the containers as they are. *)
Definition numPts : Z := (PhiResolution this + 1) * (ThetaResolution this + 1).
Definition numPolys : Z := PhiResolution this * 2 * ThetaResolution this.

Definition deltaPhi : R := (Pi / IZR (PhiResolution this))%R.
Definition deltaTheta : R := (2.0 * Pi / IZR (ThetaResolution this))%R.

(** The divisor of the normal: the norm, or 1.0 when the norm is 0.0. *)
Definition divisor (x : vec3) : R :=
  let norm := Norm x in
  if Req_dec_T norm 0.0 then 1.0%R else norm.

(** The body of the inner loop of the point generation, for the
    latitude index [j], with [theta] and [tc[0]] set by the outer loop. *)
Definition point_body (theta tc0 : R) (j : Z) (o : vtkPolyData) : vtkPolyData :=
  let phi := (IZR j * deltaPhi)%R in
  let radius := (Radius this * sin phi)%R in
  let x0 := (radius * cos theta)%R in
  let x1 := (radius * sin theta)%R in
  let x2 := (Radius this * cos phi)%R in
  let o := InsertNextPoint (x0, x1, x2) o in
  let norm := divisor (x0, x1, x2) in
  let x0 := (x0 / norm)%R in
  let x1 := (x1 / norm)%R in
  let x2 := (x2 / norm)%R in
  let o := InsertNextNormal (x0, x1, x2) o in
  let tc1 := (1.0 - phi / Pi)%R in
  InsertNextTCoord (tc0, tc1) o.

(** The body of the outer loop of the point generation, for the
    longitude index [i]. *)
Definition column_body (i : Z) (o : vtkPolyData) : vtkPolyData :=
  let theta := (IZR i * deltaTheta)%R in
  let tc0 := (theta / (2.0 * Pi))%R in
  for_le 0 (PhiResolution this) (point_body theta tc0) o.

(** The body of the inner loop of the connectivity, for the quad cell
    [(i, j)]: [pts] is written slot by slot as in the source. *)
Definition cell_body (i j : Z) (o : vtkPolyData) : vtkPolyData :=
  let pts0 := (PhiResolution this + 1) * i + j in
  let pts1 := pts0 + 1 in
  let pts2 := ((PhiResolution this + 1) * (i + 1) + j) + 1 in
  let o := InsertNextCell (pts0, pts1, pts2) o in
  let pts1 := pts2 in
  let pts2 := pts1 - 1 in
  InsertNextCell (pts0, pts1, pts2) o.

Definition band_body (i : Z) (o : vtkPolyData) : vtkPolyData :=
  for_lt 0 (PhiResolution this) (cell_body i) o.

(** The empty output, with the data type of the points chosen from
    [OutputPointsPrecision]. *)
Definition newOutput : vtkPolyData :=
  {| Points := [];
     PointsDataType :=
       match OutputPointsPrecision this with
       | DOUBLE_PRECISION => VTK_DOUBLE
       | SINGLE_PRECISION => VTK_FLOAT
       end;
     Normals := []; TCoords := []; Polys := [] |}.

(** [vtkTexturedSphereSource::RequestData]: the return code and the
    output poly data. *)
Definition RequestData : Z * vtkPolyData :=
  let o := newOutput in
  let o := for_le 0 (ThetaResolution this) column_body o in
  let o := for_lt 0 (ThetaResolution this) band_body o in
  (1, o).

(** The mesh of the specification's [generate]. *)
Definition generate : vtkPolyData := snd RequestData.
End RequestData.

(** ** Index ranges *)

(** The indices [lo, lo+1, ..., lo+n-1]. *)
Fixpoint zrange (lo : Z) (n : nat) : list Z :=
  match n with
  | O => []
  | S n' => lo :: zrange (lo + 1) n'
  end.

(** The loop body run at the indices of [l], in order. *)
Fixpoint run {St : Type} (body : Z -> St -> St) (l : list Z) (s : St) : St :=
  match l with
  | [] => s
  | i :: l' => run body l' (body i s)
  end.

(** ** What one turn of each loop appends *)

(** The angles of the vertex [(i, j)], as the loops compute them. *)
Definition theta_at (this : vtkTexturedSphereSource) (i : Z) : R :=
  (IZR i * deltaTheta this)%R.

Definition phi_at (this : vtkTexturedSphereSource) (j : Z) : R :=
  (IZR j * deltaPhi this)%R.

(** The three tuples that one turn of the inner loop appends. *)
Definition point_at (this : vtkTexturedSphereSource) (i j : Z) : vec3 :=
  ((Radius this * sin (phi_at this j) * cos (theta_at this i))%R,
   (Radius this * sin (phi_at this j) * sin (theta_at this i))%R,
   (Radius this * cos (phi_at this j))%R).

Definition normal_at (this : vtkTexturedSphereSource) (i j : Z) : vec3 :=
  let '(x0, x1, x2) := point_at this i j in
  let norm := divisor (point_at this i j) in
  ((x0 / norm)%R, (x1 / norm)%R, (x2 / norm)%R).

Definition tcoord_at (this : vtkTexturedSphereSource) (i j : Z) : vec2 :=
  ((theta_at this i / (2.0 * Pi))%R, (1.0 - phi_at this j / Pi)%R).

(** The two cells that one turn of the connectivity loop appends. *)
Definition cells_at (this : vtkTexturedSphereSource) (i j : Z) : list cell :=
  let phiR := PhiResolution this in
  [ ((phiR + 1) * i + j, (phiR + 1) * i + j + 1, (phiR + 1) * (i + 1) + j + 1);
    ((phiR + 1) * i + j, (phiR + 1) * (i + 1) + j + 1,
     (phiR + 1) * (i + 1) + j + 1 - 1) ].

(** The index ranges of the four loops. *)
Definition rows (this : vtkTexturedSphereSource) : list Z :=
  zrange 0 (Z.to_nat (PhiResolution this + 1)).

Definition columns (this : vtkTexturedSphereSource) : list Z :=
  zrange 0 (Z.to_nat (ThetaResolution this + 1)).

Definition row_bands (this : vtkTexturedSphereSource) : list Z :=
  zrange 0 (Z.to_nat (PhiResolution this)).

Definition column_bands (this : vtkTexturedSphereSource) : list Z :=
  zrange 0 (Z.to_nat (ThetaResolution this)).

(** ** Valid sources and access by point id *)

(** The resolutions of the specification's SphereSpec: both at least 4. *)
Definition valid_resolutions (this : vtkTexturedSphereSource) : Prop :=
  4 <= ThetaResolution this /\ 4 <= PhiResolution this.

(** A valid SphereSpec: a positive radius and valid resolutions. *)
Definition valid_spec (this : vtkTexturedSphereSource) : Prop :=
  (0 < Radius this)%R /\ valid_resolutions this.

(** The element of a sequence at an id (a [vtkIdType]). *)
Definition lookup {A : Type} (l : list A) (id : Z) : option A :=
  if id <? 0 then None else nth_error l (Z.to_nat id).

(** The position of the vertex of longitude index [i] and latitude index
    [j]: longitude is the outer loop, latitude the inner one. *)
Definition vertex_id (this : vtkTexturedSphereSource) (i j : Z) : Z :=
  (PhiResolution this + 1) * i + j.

(** The position of triangle [k] (0 or 1) of the quad cell [(i, j)]. *)
Definition cell_id (this : vtkTexturedSphereSource) (i j k : Z) : Z :=
  2 * (PhiResolution this * i + j) + k.


(** The point ids of a cell. *)
Definition cell_ids (c : cell) : list Z :=
  let '(a, b, c) := c in [a; b; c].

(** ** Concrete sources *)

(** The scenario of the specification: radius 1.0, both resolutions 4. *)
Definition unit_sphere_4x4 : vtkTexturedSphereSource :=
  {| Radius := 1.0%R; ThetaResolution := 4; PhiResolution := 4;
     Theta := 0%R; Phi := 0%R; OutputPointsPrecision := SINGLE_PRECISION |}.

(** A source whose resolutions are below the minimum of the constructor. *)
Definition coarse_sphere_2x2 : vtkTexturedSphereSource :=
  {| Radius := 0.5%R; ThetaResolution := 2; PhiResolution := 2;
     Theta := 0%R; Phi := 0%R; OutputPointsPrecision := SINGLE_PRECISION |}.

(** ** Readings of the specification that the code does not follow *)

(** The reading of the second triangle that the specification gives: the
    last two ids of the first triangle and [base + phiResolution + 1]. *)
Definition second_from_last_two (this : vtkTexturedSphereSource) (i j : Z) : Prop :=
  let base := vertex_id this i j in
  exists a0 a1 a2 B,
    lookup (Polys (generate this)) (cell_id this i j 0) = Some (a0, a1, a2) /\
    lookup (Polys (generate this)) (cell_id this i j 1) = Some B /\
    (a0, a1, a2) = (base, base + 1, base + PhiResolution this + 2) /\
    Permutation (cell_ids B) [a1; a2; base + PhiResolution this + 1].


(** The reading of the first texture coordinate that the specification
    gives: strictly increasing in the longitude index, and every stored u
    in the half-open interval [0, 1). *)
Definition u_increasing_in_half_open (this : vtkTexturedSphereSource) : Prop :=
  (forall i1 i2 j1 j2 t1 t2,
      0 <= i1 -> i1 < i2 -> i2 <= ThetaResolution this ->
      0 <= j1 <= PhiResolution this -> 0 <= j2 <= PhiResolution this ->
      lookup (TCoords (generate this)) (vertex_id this i1 j1) = Some t1 ->
      lookup (TCoords (generate this)) (vertex_id this i2 j2) = Some t2 ->
      (fst t1 < fst t2)%R) /\
  Forall (fun tc : vec2 => (0 <= fst tc < 1)%R) (TCoords (generate this)).

(** ** Range of the int expressions *)

Definition INT_MAX : Z := 2147483647.
Definition INT_MIN : Z := -2147483648.
Definition in_int (z : Z) : Prop := INT_MIN <= z <= INT_MAX.

(** ** Further notions used to describe the mesh *)

(** A source of resolutions 4 and 4 whose radius is 0. *)
Definition zero_sphere_4x4 : vtkTexturedSphereSource :=
  {| Radius := 0.0%R; ThetaResolution := 4; PhiResolution := 4;
     Theta := 0%R; Phi := 0%R; OutputPointsPrecision := DOUBLE_PRECISION |}.



(** The points that the three ids of a cell refer to. *)
Definition corner_points (o : vtkPolyData) (c : cell) : list (option vec3) :=
  map (lookup (Points o)) (cell_ids c).


(** ** Runs with the int type and the loop tests *)

(** The outcome of a run: the code ran to its end, or a signed [int]
    expression overflowed (undefined behaviour), or a loop was still
    running when the fuel ran out. *)
Inductive outcome (A : Type) : Type :=
| Returned (a : A)
| Undefined
| OutOfFuel.

Arguments Returned {A} a.
Arguments Undefined {A}.
Arguments OutOfFuel {A}.

Definition bind {A B : Type} (x : outcome A) (k : A -> outcome B) : outcome B :=
  match x with
  | Returned a => k a
  | Undefined => Undefined
  | OutOfFuel => OutOfFuel
  end.

Notation "x <- c ;; k" := (bind c (fun x => k))
  (at level 61, c at next level, right associativity).

(** The value of an [int] expression: defined when it fits 32 bits. *)
Definition int_of (z : Z) : outcome Z :=
  if andb (INT_MIN <=? z) (z <=? INT_MAX) then Returned z else Undefined.

Definition int_add (a b : Z) : outcome Z := int_of (a + b).
Definition int_mul (a b : Z) : outcome Z := int_of (a * b).

(** [for (i = i0; test i; i++) s = body i s] on an [int] counter: the test
    is evaluated before every turn and the increment after it. *)
Fixpoint for_run {St : Type} (fuel : nat) (test : Z -> bool)
    (body : Z -> St -> outcome St) (i : Z) (s : St) : outcome St :=
  match fuel with
  | O => OutOfFuel
  | S fuel' =>
      if test i then
        s' <- body i s ;;
        i' <- int_add i 1 ;;
        for_run fuel' test body i' s'
      else Returned s
  end.

(** The inner loop of the point generation (lines 117 to 144).  Its body
    converts [j] to [double] and computes in [double]: no [int]
    expression other than the counter. *)
Definition column_loop_run (fuel : nat) (this : vtkTexturedSphereSource)
    (i : Z) (o : vtkPolyData) : outcome vtkPolyData :=
  let theta := (IZR i * deltaTheta this)%R in
  let tc0 := (theta / (2.0 * Pi))%R in
  for_run fuel (fun j => j <=? PhiResolution this)
    (fun j o => Returned (point_body this theta tc0 j o)) 0 o.

(** The body of the inner loop of the connectivity (lines 154 to 161):
    [pts[0]] and [pts[2]] are assigned from [int] expressions; [pts[1]]
    and the second [pts[2]] are computed on [vtkIdType] values. *)
Definition cell_body_run (this : vtkTexturedSphereSource) (i j : Z)
    (o : vtkPolyData) : outcome vtkPolyData :=
  a <- int_add (PhiResolution this) 1 ;;
  b <- int_mul a i ;;
  pts0 <- int_add b j ;;
  let pts1 := pts0 + 1 in
  c <- int_add (PhiResolution this) 1 ;;
  d <- int_add i 1 ;;
  e <- int_mul c d ;;
  f <- int_add e j ;;
  pts2 <- int_add f 1 ;;
  let o := InsertNextCell (pts0, pts1, pts2) o in
  let pts1 := pts2 in
  let pts2 := pts1 - 1 in
  Returned (InsertNextCell (pts0, pts1, pts2) o).

Definition band_loop_run (fuel : nat) (this : vtkTexturedSphereSource)
    (i : Z) (o : vtkPolyData) : outcome vtkPolyData :=
  for_run fuel (fun j => j <? PhiResolution this) (cell_body_run this i) 0 o.

(** [vtkTexturedSphereSource::RequestData] with its [int] expressions in
    the order of the source: [numPts] (line 70), [numPolys] (line 74), the
    sizes [3 * numPts] and [2 * numPts] passed to [Allocate] (lines 91 and
    94), then the two pairs of loops and [return 1].  A failed memory
    allocation is not part of the model. *)
Definition RequestData_run (fuel : nat) (this : vtkTexturedSphereSource)
  : outcome (Z * vtkPolyData) :=
  p1 <- int_add (PhiResolution this) 1 ;;
  t1 <- int_add (ThetaResolution this) 1 ;;
  numPts <- int_mul p1 t1 ;;
  q <- int_mul (PhiResolution this) 2 ;;
  numPolys <- int_mul q (ThetaResolution this) ;;
  _ <- int_mul 3 numPts ;;
  _ <- int_mul 2 numPts ;;
  o <- for_run fuel (fun i => i <=? ThetaResolution this)
         (column_loop_run fuel this) 0 (newOutput this) ;;
  o <- for_run fuel (fun i => i <? ThetaResolution this)
         (band_loop_run fuel this) 0 o ;;
  Returned (1, o).

(** The reading of completion that the specification gives: the run of
    [RequestData] ends and returns 1. *)
Definition completes (this : vtkTexturedSphereSource) : Prop :=
  exists fuel o, RequestData_run fuel this = Returned (1, o).

(** ** One turn of the loops in IEEE arithmetic *)

Module IEEE.
Import PrimFloat SpecFloat FloatOps.

(** A C++ [double]: a binary64 number. *)
Definition double : Type := float.

(** The conversion of an [int] to [double], which is exact. *)
Definition of_int (z : Z) : double :=
  SF2Prim (binary_normalize 53 1024 z 0 false).

(** The conversion of a [double] to [float] made when a tuple is inserted
    in a [vtkFloatArray]: rounding to binary32, to nearest, ties to even.
    The result is given as the [double] of the same value. *)
Definition to_float (x : double) : double :=
  match Prim2SF x with
  | S754_finite s m e => SF2Prim (binary_round 24 128 s m e)
  | _ => x
  end.

(** Modelled from the spec: [vtkMath::Pi()] is declared in vtkMath.h,
    which is not part of the sources; it is the [double] nearest to pi. *)
Definition Pi : double := 0x1.921fb54442d18p+1%float.

(** Lines 108 and 109. *)
Definition deltaPhi (PhiResolution : Z) : double :=
  (Pi / of_int PhiResolution)%float.

Definition deltaTheta (ThetaResolution : Z) : double :=
  (2.0 * Pi / of_int ThetaResolution)%float.

(** Lines 112 and 113: [theta] and [tc[0]] of the column [i]. *)
Definition tc0 (ThetaResolution i : Z) : double :=
  let theta := (of_int i * deltaTheta ThetaResolution)%float in
  (theta / (2.0 * Pi))%float.

(** Lines 119 and 142: [phi] and [tc[1]] of the row [j]. *)
Definition tc1 (PhiResolution j : Z) : double :=
  let phi := (of_int j * deltaPhi PhiResolution)%float in
  (1.0 - phi / Pi)%float.

(** Modelled from the spec: [vtkMath::Norm(x)], the Euclidean norm. *)
Definition Norm (x : double * double * double) : double :=
  let '(x0, x1, x2) := x in sqrt (x0 * x0 + x1 * x1 + x2 * x2)%float.

(** Lines 128 to 134: the normal computed from the point [x]. *)
Definition normal (x : double * double * double) : double * double * double :=
  let '(x0, x1, x2) := x in
  let norm := Norm x in
  let norm := if (norm =? 0.0)%float then 1.0%float else norm in
  ((x0 / norm)%float, (x1 / norm)%float, (x2 / norm)%float).

(** The [double] values nearest to 1e-200 and to 1e200, two positive
    radii. *)
Definition tiny_radius : double := 0x1.87e92154ef7acp-665%float.
Definition huge_radius : double := 0x1.4e718d7d7625ap+664%float.
End IEEE.

(** ** Running the model *)

(** The cells of the first two quads of the 4 x 4 sphere, then those of
    the whole 2 x 2 sphere. *)
Example ex_polys_4x4 :
  firstn 4 (Polys (generate unit_sphere_4x4))
  = [(0, 1, 6); (0, 6, 5); (1, 2, 7); (1, 7, 6)].
Proof. reflexivity. Qed.

Example ex_polys_2x2 :
  Polys (generate coarse_sphere_2x2)
  = [(0, 1, 4); (0, 4, 3); (1, 2, 5); (1, 5, 4);
     (3, 4, 7); (3, 7, 6); (4, 5, 8); (4, 8, 7)].
Proof. reflexivity. Qed.

Example ex_sizes_4x4 :
  (length (Points (generate unit_sphere_4x4)),
   length (Normals (generate unit_sphere_4x4)),
   length (TCoords (generate unit_sphere_4x4)),
   length (Polys (generate unit_sphere_4x4)))
  = (25, 25, 25, 32)%nat.
Proof. reflexivity. Qed.

(** ** The loops as runs over index ranges *)

Lemma for_lt_run {St : Type} (body : Z -> St -> St) (n : nat) :
  forall i bound s, Z.to_nat (bound - i) = n ->
    for_lt i bound body s = run body (zrange i n) s.
Proof.
  induction n as [|n IH]; intros i bound s Hn; rewrite for_lt_equation_1;
    destruct (Z_lt_dec i bound) as [Hlt|Hge]; simpl.
  - lia.
  - reflexivity.
  - apply IH. lia.
  - lia.
Qed.

Lemma for_le_run {St : Type} (body : Z -> St -> St) (n : nat) :
  forall i bound s, Z.to_nat (bound + 1 - i) = n ->
    for_le i bound body s = run body (zrange i n) s.
Proof.
  induction n as [|n IH]; intros i bound s Hn; rewrite for_le_equation_1;
    destruct (Z_le_dec i bound) as [Hle|Hgt]; simpl.
  - lia.
  - reflexivity.
  - apply IH. lia.
  - lia.
Qed.

Lemma zrange_length lo n : length (zrange lo n) = n.
Proof. revert lo; induction n; intros; simpl; auto. Qed.

Lemma zrange_nth lo n k :
  (k < n)%nat -> nth_error (zrange lo n) k = Some (lo + Z.of_nat k).
Proof.
  revert lo k; induction n as [|n IH]; intros lo k Hk; [lia|].
  destruct k as [|k]; simpl.
  - f_equal; lia.
  - rewrite IH by lia. f_equal; lia.
Qed.

Lemma zrange_In lo n x : In x (zrange lo n) <-> lo <= x < lo + Z.of_nat n.
Proof.
  revert lo; induction n as [|n IH]; intros lo; simpl.
  - lia.
  - rewrite IH. lia.
Qed.

Section Appending.
Context {St A : Type}.
Variable proj : St -> list A.
Variable body : Z -> St -> St.
Variable g : Z -> list A.
Hypothesis body_appends : forall i s, proj (body i s) = proj s ++ g i.

(** A loop whose body appends [g i] to a component appends the
    concatenation of the [g i], in the order of the iterations. *)
Lemma run_appends l : forall s, proj (run body l s) = proj s ++ flat_map g l.
Proof.
  induction l as [|i l IH]; intros s; simpl.
  - now rewrite app_nil_r.
  - rewrite IH, body_appends, <- app_assoc. reflexivity.
Qed.
End Appending.

Section Preserving.
Context {St A : Type}.
Variable proj : St -> A.
Variable body : Z -> St -> St.
Hypothesis body_preserves : forall i s, proj (body i s) = proj s.

Lemma run_preserves l : forall s, proj (run body l s) = proj s.
Proof.
  induction l as [|i l IH]; intros s; simpl; [reflexivity|].
  now rewrite IH, body_preserves.
Qed.
End Preserving.

Lemma flat_map_single {A B : Type} (f : A -> B) l :
  flat_map (fun x => [f x]) l = map f l.
Proof. induction l; simpl; congruence. Qed.

Lemma flat_map_uniform_length {A B : Type} (g : A -> list B) (len : nat) l :
  (forall x, length (g x) = len) ->
  length (flat_map g l) = (length l * len)%nat.
Proof.
  intros Hg. induction l as [|x l IH]; simpl; [reflexivity|].
  rewrite length_app, IH, Hg. reflexivity.
Qed.

(** In a concatenation of blocks of the same length [len], the element
    [k] of the block of index [i] is at position [i * len + k]. *)
Lemma flat_map_uniform_nth {B : Type} (g : Z -> list B) (len : nat) n :
  (forall x, length (g x) = len) ->
  forall lo i k, (i < n)%nat -> (k < len)%nat ->
    nth_error (flat_map g (zrange lo n)) (i * len + k)
    = nth_error (g (lo + Z.of_nat i)) k.
Proof.
  intros Hg. induction n as [|n IH]; intros lo i k Hi Hk; [lia|].
  simpl. destruct i as [|i].
  - rewrite nth_error_app1 by (rewrite Hg; lia).
    simpl. f_equal. f_equal. lia.
  - rewrite nth_error_app2 by (rewrite Hg; simpl; lia).
    rewrite Hg. replace (S i * len + k - len)%nat with (i * len + k)%nat by (simpl; lia).
    rewrite IH by lia. f_equal. f_equal. lia.
Qed.

(** ** The sequences of the generated mesh *)

Section ClosedForm.
Variable this : vtkTexturedSphereSource.

Lemma column_body_run i o :
  column_body this i o
  = run (point_body this (theta_at this i) (theta_at this i / (2.0 * Pi))%R) (rows this) o.
Proof. unfold column_body. apply for_le_run. f_equal; lia. Qed.

Lemma band_body_run i o :
  band_body this i o = run (cell_body this i) (row_bands this) o.
Proof. unfold band_body. apply for_lt_run. f_equal; lia. Qed.

Lemma column_body_Points i o :
  Points (column_body this i o) = Points o ++ map (point_at this i) (rows this).
Proof.
  rewrite column_body_run, <- flat_map_single.
  apply (run_appends Points). reflexivity.
Qed.

Lemma column_body_Normals i o :
  Normals (column_body this i o) = Normals o ++ map (normal_at this i) (rows this).
Proof.
  rewrite column_body_run, <- flat_map_single.
  apply (run_appends Normals). reflexivity.
Qed.

Lemma column_body_TCoords i o :
  TCoords (column_body this i o) = TCoords o ++ map (tcoord_at this i) (rows this).
Proof.
  rewrite column_body_run, <- flat_map_single.
  apply (run_appends TCoords). reflexivity.
Qed.

Lemma column_body_Polys i o : Polys (column_body this i o) = Polys o.
Proof. rewrite column_body_run. apply (run_preserves Polys). reflexivity. Qed.

Lemma band_body_Polys i o :
  Polys (band_body this i o) = Polys o ++ flat_map (cells_at this i) (row_bands this).
Proof.
  rewrite band_body_run. apply (run_appends Polys).
  intros j s. unfold cell_body, cells_at; simpl.
  rewrite <- app_assoc. reflexivity.
Qed.

Lemma band_body_Points i o : Points (band_body this i o) = Points o.
Proof. rewrite band_body_run. apply (run_preserves Points). reflexivity. Qed.

Lemma band_body_Normals i o : Normals (band_body this i o) = Normals o.
Proof. rewrite band_body_run. apply (run_preserves Normals). reflexivity. Qed.

Lemma band_body_TCoords i o : TCoords (band_body this i o) = TCoords o.
Proof. rewrite band_body_run. apply (run_preserves TCoords). reflexivity. Qed.

Lemma generate_run :
  generate this
  = run (band_body this) (column_bands this)
      (run (column_body this) (columns this) (newOutput this)).
Proof.
  unfold generate, RequestData; simpl.
  rewrite (for_le_run _ (Z.to_nat (ThetaResolution this + 1))) by (f_equal; lia).
  rewrite (for_lt_run _ (Z.to_nat (ThetaResolution this))) by (f_equal; lia).
  reflexivity.
Qed.

(** The four sequences of the generated mesh. *)
Lemma generate_Points :
  Points (generate this)
  = flat_map (fun i => map (point_at this i) (rows this)) (columns this).
Proof.
  rewrite generate_run.
  rewrite (run_preserves Points _ band_body_Points).
  rewrite (run_appends Points _ _ column_body_Points). reflexivity.
Qed.

Lemma generate_Normals :
  Normals (generate this)
  = flat_map (fun i => map (normal_at this i) (rows this)) (columns this).
Proof.
  rewrite generate_run.
  rewrite (run_preserves Normals _ band_body_Normals).
  rewrite (run_appends Normals _ _ column_body_Normals). reflexivity.
Qed.

Lemma generate_TCoords :
  TCoords (generate this)
  = flat_map (fun i => map (tcoord_at this i) (rows this)) (columns this).
Proof.
  rewrite generate_run.
  rewrite (run_preserves TCoords _ band_body_TCoords).
  rewrite (run_appends TCoords _ _ column_body_TCoords). reflexivity.
Qed.

Lemma generate_Polys :
  Polys (generate this)
  = flat_map (fun i => flat_map (cells_at this i) (row_bands this)) (column_bands this).
Proof.
  rewrite generate_run.
  rewrite (run_appends Polys _ _ band_body_Polys).
  rewrite (run_preserves Polys _ column_body_Polys). reflexivity.
Qed.
End ClosedForm.

Lemma lookup_grid {B : Type} (f : Z -> Z -> B) (n m i j : Z) :
  0 <= i < n -> 0 <= j < m ->
  lookup (flat_map (fun i => map (f i) (zrange 0 (Z.to_nat m)))
            (zrange 0 (Z.to_nat n))) (m * i + j)
  = Some (f i j).
Proof.
  intros Hi Hj. unfold lookup.
  destruct (Z.ltb_spec (m * i + j) 0) as [Hneg|_]; [nia|].
  replace (Z.to_nat (m * i + j))
    with (Z.to_nat i * Z.to_nat m + Z.to_nat j)%nat by nia.
  rewrite (flat_map_uniform_nth _ (Z.to_nat m))
    by (try lia; intros; now rewrite length_map, zrange_length).
  rewrite nth_error_map, zrange_nth by lia.
  simpl. do 2 f_equal; lia.
Qed.

Lemma length_grid {B : Type} (f : Z -> list B) (n m : nat) (lo : Z) :
  (forall i, length (f i) = m) ->
  length (flat_map f (zrange lo n)) = (n * m)%nat.
Proof.
  intros Hf. now rewrite (flat_map_uniform_length _ m), zrange_length.
Qed.

Section Lookup.
Variable this : vtkTexturedSphereSource.
Hypothesis theta_nonneg : 0 <= ThetaResolution this.
Hypothesis phi_nonneg : 0 <= PhiResolution this.

Lemma Points_length :
  Z.of_nat (length (Points (generate this))) = numPts this.
Proof.
  rewrite generate_Points. unfold columns, rows, numPts.
  rewrite (length_grid _ _ (Z.to_nat (PhiResolution this + 1)))
    by (intros; now rewrite length_map, zrange_length).
  nia.
Qed.

Lemma Normals_length :
  Z.of_nat (length (Normals (generate this))) = numPts this.
Proof.
  rewrite generate_Normals. unfold columns, rows, numPts.
  rewrite (length_grid _ _ (Z.to_nat (PhiResolution this + 1)))
    by (intros; now rewrite length_map, zrange_length).
  nia.
Qed.

Lemma TCoords_length :
  Z.of_nat (length (TCoords (generate this))) = numPts this.
Proof.
  rewrite generate_TCoords. unfold columns, rows, numPts.
  rewrite (length_grid _ _ (Z.to_nat (PhiResolution this + 1)))
    by (intros; now rewrite length_map, zrange_length).
  nia.
Qed.

Lemma Polys_length :
  Z.of_nat (length (Polys (generate this))) = numPolys this.
Proof.
  rewrite generate_Polys. unfold column_bands, row_bands, numPolys.
  rewrite (length_grid _ _ (Z.to_nat (PhiResolution this) * 2)).
  - nia.
  - intros i. now rewrite (length_grid _ _ 2).
Qed.

Section AtVertex.
Variables i j : Z.
Hypothesis i_range : 0 <= i <= ThetaResolution this.
Hypothesis j_range : 0 <= j <= PhiResolution this.

Lemma lookup_Points :
  lookup (Points (generate this)) (vertex_id this i j)
  = Some (point_at this i j).
Proof.
  rewrite generate_Points. unfold columns, rows, vertex_id.
  apply (lookup_grid (point_at this)); lia.
Qed.

Lemma lookup_Normals :
  lookup (Normals (generate this)) (vertex_id this i j)
  = Some (normal_at this i j).
Proof.
  rewrite generate_Normals. unfold columns, rows, vertex_id.
  apply (lookup_grid (normal_at this)); lia.
Qed.

Lemma lookup_TCoords :
  lookup (TCoords (generate this)) (vertex_id this i j)
  = Some (tcoord_at this i j).
Proof.
  rewrite generate_TCoords. unfold columns, rows, vertex_id.
  apply (lookup_grid (tcoord_at this)); lia.
Qed.
End AtVertex.

Lemma lookup_Polys i j k :
  0 <= i < ThetaResolution this -> 0 <= j < PhiResolution this ->
  0 <= k < 2 ->
  lookup (Polys (generate this)) (cell_id this i j k)
  = nth_error (cells_at this i j) (Z.to_nat k).
Proof.
  intros Hi Hj Hk. rewrite generate_Polys.
  unfold column_bands, row_bands, cell_id, lookup.
  destruct (Z.ltb_spec (2 * (PhiResolution this * i + j) + k) 0) as [Hneg|_];
    [nia|].
  replace (Z.to_nat (2 * (PhiResolution this * i + j) + k))
    with (Z.to_nat i * (Z.to_nat (PhiResolution this) * 2)
          + (Z.to_nat j * 2 + Z.to_nat k))%nat by nia.
  rewrite (flat_map_uniform_nth _ (Z.to_nat (PhiResolution this) * 2))
    by (try nia; intros; now rewrite (length_grid _ _ 2)).
  rewrite (flat_map_uniform_nth _ 2) by (try lia; reflexivity).
  do 2 f_equal; lia.
Qed.
End Lookup.

Lemma unit_sphere_4x4_valid : valid_spec unit_sphere_4x4.
Proof. unfold valid_spec, valid_resolutions; simpl. split; [lra | lia]. Qed.

(** ** Sizes of the mesh *)

(** C1: with both resolutions at least 4, the points, normals and texture
    coordinates of the generated mesh all have length
    (phiResolution+1)*(thetaResolution+1), and there are
    2*phiResolution*thetaResolution triangles. *)
Theorem C1_mesh_sizes (this : vtkTexturedSphereSource) :
  4 <= ThetaResolution this -> 4 <= PhiResolution this ->
  let n := (PhiResolution this + 1) * (ThetaResolution this + 1) in
  Z.of_nat (length (Points (generate this))) = n /\
  Z.of_nat (length (Normals (generate this))) = n /\
  Z.of_nat (length (TCoords (generate this))) = n /\
  Z.of_nat (length (Polys (generate this)))
  = 2 * PhiResolution this * ThetaResolution this.
Proof.
  intros Ht Hp n.
  rewrite Points_length, Normals_length, TCoords_length, Polys_length by lia.
  unfold numPts, numPolys. repeat split; lia.
Qed.

Lemma C1_mesh_sizes_witness :
  4 <= 4 /\ 4 <= 4 /\
  Z.of_nat (length (Points (generate unit_sphere_4x4))) = 25 /\
  Z.of_nat (length (Normals (generate unit_sphere_4x4))) = 25 /\
  Z.of_nat (length (TCoords (generate unit_sphere_4x4))) = 25 /\
  Z.of_nat (length (Polys (generate unit_sphere_4x4))) = 32.
Proof.
  split; [lia | split; [lia |]].
  apply (C1_mesh_sizes unit_sphere_4x4); simpl; lia.
Defined.

(** ** Connectivity *)

(** C3, as stated, fails: in the quad cell (0, 0) of the 4 x 4 sphere the
    first triangle is (0, 1, 6) and the second is (0, 6, 5), which does not
    hold the id 1. *)
Lemma C3_second_triangle_counterexample :
  ~ second_from_last_two unit_sphere_4x4 0 0.
Proof.
  intros (a0 & a1 & a2 & B & HA & HB & Heq & Hperm).
  rewrite (lookup_Polys unit_sphere_4x4) in HA, HB by (simpl; lia).
  simpl in HA, HB. injection HB as <-. injection Heq as -> -> ->.
  apply Permutation_sym in Hperm.
  apply (Permutation_in (vertex_id unit_sphere_4x4 0 0 + 1)) in Hperm;
    [| now left].
  simpl in Hperm. unfold vertex_id in Hperm; simpl in Hperm. lia.
Qed.

(** C3, amended: for a valid source and a quad cell (i, j), the triangles
    at positions 2*(phiResolution*i + j) and 2*(phiResolution*i + j) + 1
    are (base, base+1, base+phiResolution+2) and
    (base, base+phiResolution+2, base+phiResolution+1), with
    base = (phiResolution+1)*i + j: the second keeps the first and the
    last id of the first.  There are two triangles for each cell. *)
Theorem C3_cell_triangles (this : vtkTexturedSphereSource) (i j : Z) :
  valid_spec this ->
  0 <= i < ThetaResolution this -> 0 <= j < PhiResolution this ->
  let base := (PhiResolution this + 1) * i + j in
  lookup (Polys (generate this)) (2 * (PhiResolution this * i + j))
  = Some (base, base + 1, base + PhiResolution this + 2) /\
  lookup (Polys (generate this)) (2 * (PhiResolution this * i + j) + 1)
  = Some (base, base + PhiResolution this + 2, base + PhiResolution this + 1) /\
  Z.of_nat (length (Polys (generate this)))
  = 2 * (PhiResolution this * ThetaResolution this).
Proof.
  intros (_ & Ht & Hp) Hi Hj base.
  pose proof (lookup_Polys this ltac:(lia) ltac:(lia) i j 0 Hi Hj ltac:(lia))
    as H0.
  pose proof (lookup_Polys this ltac:(lia) ltac:(lia) i j 1 Hi Hj ltac:(lia))
    as H1.
  unfold cell_id in H0, H1. rewrite Z.add_0_r in H0.
  subst base. split; [| split].
  - rewrite H0. simpl. repeat (f_equal; try lia).
  - rewrite H1. simpl. repeat (f_equal; try lia).
  - rewrite Polys_length by lia. unfold numPolys. lia.
Qed.

Lemma C3_cell_triangles_witness :
  valid_spec unit_sphere_4x4 /\
  lookup (Polys (generate unit_sphere_4x4)) 12 = Some (7, 8, 13) /\
  lookup (Polys (generate unit_sphere_4x4)) 13 = Some (7, 13, 12) /\
  Z.of_nat (length (Polys (generate unit_sphere_4x4))) = 32.
Proof.
  split; [exact unit_sphere_4x4_valid |].
  apply (C3_cell_triangles unit_sphere_4x4 1 2 unit_sphere_4x4_valid);
    simpl; lia.
Defined.

(** C10: for a valid source every point id of every triangle is the
    position of a generated point, that is, lies in
    [0, (phiResolution+1)*(thetaResolution+1)), and the last point id
    (phiResolution+1)*(thetaResolution+1) - 1 is used by a triangle, so
    it is the largest id emitted. *)
Theorem C10_cell_ids_in_range (this : vtkTexturedSphereSource) :
  valid_spec this ->
  let n := (PhiResolution this + 1) * (ThetaResolution this + 1) in
  Z.of_nat (length (Points (generate this))) = n /\
  Forall (fun c => Forall (fun id => 0 <= id < n) (cell_ids c))
    (Polys (generate this)) /\
  exists c, In c (Polys (generate this)) /\ In (n - 1) (cell_ids c).
Proof.
  intros (_ & Ht & Hp) n. split; [| split].
  - rewrite Points_length by lia. reflexivity.
  - rewrite generate_Polys.
    apply Forall_flat_map, Forall_forall. intros i Hi.
    apply Forall_flat_map, Forall_forall. intros j Hj.
    apply zrange_In in Hi, Hj. subst n.
    unfold cells_at. repeat constructor; nia.
  - exists ((PhiResolution this + 1) * (ThetaResolution this - 1)
            + (PhiResolution this - 1),
            (PhiResolution this + 1) * (ThetaResolution this - 1)
            + (PhiResolution this - 1) + 1,
            n - 1).
    split; [| simpl; auto].
    apply (nth_error_In _ (Z.to_nat (cell_id this (ThetaResolution this - 1)
                                       (PhiResolution this - 1) 0))).
    pose proof (lookup_Polys this ltac:(lia) ltac:(lia)
                  (ThetaResolution this - 1) (PhiResolution this - 1) 0
                  ltac:(lia) ltac:(lia) ltac:(lia)) as H.
    unfold lookup in H.
    destruct (Z.ltb_spec (cell_id this (ThetaResolution this - 1)
                            (PhiResolution this - 1) 0) 0) as [Hneg|_].
    + unfold cell_id in Hneg. nia.
    + rewrite H. simpl. subst n. do 2 f_equal. ring.
Qed.

Lemma C10_cell_ids_in_range_witness :
  valid_spec unit_sphere_4x4 /\
  Z.of_nat (length (Points (generate unit_sphere_4x4))) = 25 /\
  Forall (fun c => Forall (fun id => 0 <= id < 25) (cell_ids c))
    (Polys (generate unit_sphere_4x4)) /\
  exists c, In c (Polys (generate unit_sphere_4x4)) /\ In 24 (cell_ids c).
Proof.
  split; [exact unit_sphere_4x4_valid |].
  exact (C10_cell_ids_in_range unit_sphere_4x4 unit_sphere_4x4_valid).
Defined.

(** ** Real-number facts used by the vertex formulas *)

Open Scope R_scope.

(** The decimal literals of the source. *)
Lemma lit_0 : 0.0 = 0.
Proof. lra. Qed.

Lemma lit_1 : 1.0 = 1.
Proof. lra. Qed.

Lemma lit_2 : 2.0 = 2.
Proof. lra. Qed.

Lemma sin2_cos2' x : sin x * sin x + cos x * cos x = 1.
Proof. pose proof (sin2_cos2 x) as H. unfold Rsqr in H. exact H. Qed.

(** The sum of squares under the norm of a point of the sphere. *)
Lemma sphere_sum_squares r p t :
  r * sin p * cos t * (r * sin p * cos t)
  + r * sin p * sin t * (r * sin p * sin t)
  + r * cos p * (r * cos p) = r * r.
Proof.
  pose proof (sin2_cos2' p) as Hp. pose proof (sin2_cos2' t) as Ht.
  replace (r * sin p * cos t * (r * sin p * cos t)
           + r * sin p * sin t * (r * sin p * sin t)
           + r * cos p * (r * cos p))
    with (r * r * (sin p * sin p * (sin t * sin t + cos t * cos t)
                   + cos p * cos p)) by ring.
  rewrite Ht, Rmult_1_r, Hp. ring.
Qed.

Section Angles.
Variable this : vtkTexturedSphereSource.
Hypothesis theta_pos : (0 < ThetaResolution this)%Z.
Hypothesis phi_pos : (0 < PhiResolution this)%Z.

(** The angles of the loops are those of the specification. *)
Lemma theta_at_spec i :
  theta_at this i = IZR i * 2 * PI / IZR (ThetaResolution this).
Proof.
  unfold theta_at, deltaTheta, Pi. rewrite lit_2.
  field. apply not_0_IZR. lia.
Qed.

Lemma phi_at_spec j :
  phi_at this j = IZR j * PI / IZR (PhiResolution this).
Proof.
  unfold phi_at, deltaPhi, Pi. field. apply not_0_IZR. lia.
Qed.

(** The first texture coordinate is the fraction of the turn. *)
Lemma u_fraction i :
  theta_at this i / (2.0 * Pi) = IZR i / IZR (ThetaResolution this).
Proof.
  rewrite theta_at_spec, lit_2. unfold Pi. field.
  split; [apply not_0_IZR; lia | apply PI_neq0].
Qed.

(** The second one is the flipped fraction of the half turn. *)
Lemma v_fraction j :
  1.0 - phi_at this j / Pi = 1 - IZR j / IZR (PhiResolution this).
Proof.
  rewrite phi_at_spec, lit_1. unfold Pi. field.
  split; [apply not_0_IZR; lia | apply PI_neq0].
Qed.
End Angles.

(** The norm of a generated point is the absolute value of the radius. *)
Lemma Norm_point_at this i j : Norm (point_at this i j) = Rabs (Radius this).
Proof.
  unfold Norm, point_at. rewrite sphere_sum_squares.
  change (Radius this * Radius this) with (Rsqr (Radius this)).
  apply sqrt_Rsqr_abs.
Qed.

(** The divisor is never zero: the division of the normal is defined. *)
Lemma divisor_nonzero x : divisor x <> 0.
Proof.
  unfold divisor. destruct (Req_dec_T (Norm x) 0.0) as [E|E].
  - lra.
  - rewrite lit_0 in E. exact E.
Qed.

(** The substitution of the divisor happens exactly at the zero norm. *)
Lemma divisor_spec x :
  (Norm x = 0 -> divisor x = 1) /\ (Norm x <> 0 -> divisor x = Norm x).
Proof.
  unfold divisor. destruct (Req_dec_T (Norm x) 0.0) as [E|E];
    rewrite lit_0 in E; split; intros H; try lra; contradiction.
Qed.

Close Scope R_scope.

Lemma lookup_In {A : Type} (l : list A) (id : Z) (x : A) :
  lookup l id = Some x -> In x l.
Proof.
  unfold lookup. destruct (id <? 0); [discriminate|]. apply nth_error_In.
Qed.

(** ** Points *)

(** C2: for a valid source, a longitude index i in [0, thetaResolution]
    and a latitude index j in [0, phiResolution], the point at position
    (phiResolution+1)*i + j is
    (radius*sin(phi)*cos(theta), radius*sin(phi)*sin(theta), radius*cos(phi))
    with theta = i*2*pi/thetaResolution and phi = j*pi/phiResolution. *)
Theorem C2_point_position (this : vtkTexturedSphereSource) (i j : Z) :
  valid_spec this ->
  0 <= i <= ThetaResolution this -> 0 <= j <= PhiResolution this ->
  let theta := (IZR i * 2 * PI / IZR (ThetaResolution this))%R in
  let phi := (IZR j * PI / IZR (PhiResolution this))%R in
  lookup (Points (generate this)) ((PhiResolution this + 1) * i + j)
  = Some ((Radius this * sin phi * cos theta)%R,
          (Radius this * sin phi * sin theta)%R,
          (Radius this * cos phi)%R).
Proof.
  intros (_ & Ht & Hp) Hi Hj theta phi.
  change ((PhiResolution this + 1) * i + j) with (vertex_id this i j).
  rewrite lookup_Points by lia. unfold point_at.
  rewrite theta_at_spec, phi_at_spec by lia. reflexivity.
Qed.

Lemma C2_point_position_witness :
  valid_spec unit_sphere_4x4 /\
  lookup (Points (generate unit_sphere_4x4)) 7
  = Some ((1.0 * sin (2 * PI / 4) * cos (1 * 2 * PI / 4))%R,
          (1.0 * sin (2 * PI / 4) * sin (1 * 2 * PI / 4))%R,
          (1.0 * cos (2 * PI / 4))%R).
Proof.
  split; [exact unit_sphere_4x4_valid |].
  apply (C2_point_position unit_sphere_4x4 1 2 unit_sphere_4x4_valid);
    simpl; lia.
Defined.

(** ** Normals *)

Section Normals.
Variable this : vtkTexturedSphereSource.
Hypothesis radius_pos : (0 < Radius this)%R.

Lemma Norm_point_at_valid i j : Norm (point_at this i j) = Radius this.
Proof. rewrite Norm_point_at. apply Rabs_pos_eq. lra. Qed.

Lemma divisor_point_at_valid i j : divisor (point_at this i j) = Radius this.
Proof.
  destruct (divisor_spec (point_at this i j)) as [_ H].
  rewrite H; rewrite Norm_point_at_valid; [reflexivity | lra].
Qed.


End Normals.




(** ** Texture coordinates *)

(** C5: for a valid source the texture coordinate stored for the vertex
    of angles (theta, phi) is u = theta/(2*pi), v = 1 - phi/pi; so v is 1
    where phi = 0, as on the row j = 0, and 0 where phi = pi. *)
Theorem C5_texture_coordinates (this : vtkTexturedSphereSource) (i j : Z) :
  valid_spec this ->
  0 <= i <= ThetaResolution this -> 0 <= j <= PhiResolution this ->
  let theta := (IZR i * 2 * PI / IZR (ThetaResolution this))%R in
  let phi := (IZR j * PI / IZR (PhiResolution this))%R in
  lookup (TCoords (generate this)) (vertex_id this i j)
  = Some ((theta / (2 * PI))%R, (1 - phi / PI)%R) /\
  (phi = 0%R -> (1 - phi / PI)%R = 1%R) /\
  (phi = PI -> (1 - phi / PI)%R = 0%R) /\
  lookup (TCoords (generate this)) (vertex_id this i 0)
  = Some ((theta / (2 * PI))%R, 1%R).
Proof.
  intros (_ & Ht & Hp) Hi Hj theta phi.
  rewrite !lookup_TCoords by lia. unfold tcoord_at.
  rewrite !v_fraction, lit_2, theta_at_spec by lia.
  fold theta. subst phi. unfold Pi.
  assert (HP : IZR (PhiResolution this) <> 0%R) by (apply not_0_IZR; lia).
  pose proof PI_neq0 as Hpi.
  repeat split.
  - do 2 f_equal. field. split; assumption.
  - intros ->. field. assumption.
  - intros ->. field. assumption.
  - do 2 f_equal. field. assumption.
Qed.

Lemma C5_texture_coordinates_witness :
  valid_spec unit_sphere_4x4 /\
  lookup (TCoords (generate unit_sphere_4x4)) 7
  = Some ((1 * 2 * PI / 4 / (2 * PI))%R, (1 - 2 * PI / 4 / PI)%R) /\
  ((2 * PI / 4)%R = 0%R -> (1 - 2 * PI / 4 / PI)%R = 1%R) /\
  ((2 * PI / 4)%R = PI -> (1 - 2 * PI / 4 / PI)%R = 0%R) /\
  lookup (TCoords (generate unit_sphere_4x4)) 5
  = Some ((1 * 2 * PI / 4 / (2 * PI))%R, 1%R).
Proof.
  split; [exact unit_sphere_4x4_valid |].
  apply (C5_texture_coordinates unit_sphere_4x4 1 2 unit_sphere_4x4_valid);
    simpl; lia.
Defined.

(** C6, as stated, fails: the loop over the longitude index runs up to
    thetaResolution included, and on that seam column u is 1; on the 4 x 4
    sphere the texture coordinate at position 20 has u = 1. *)
Lemma C6_u_range_counterexample :
  ~ u_increasing_in_half_open unit_sphere_4x4.
Proof.
  unfold u_increasing_in_half_open. rewrite Forall_forall. intros [_ H].
  specialize (H (tcoord_at unit_sphere_4x4 4 0)).
  assert (Hin : In (tcoord_at unit_sphere_4x4 4 0)
                  (TCoords (generate unit_sphere_4x4))).
  { apply (lookup_In _ (vertex_id unit_sphere_4x4 4 0)).
    apply lookup_TCoords; simpl; lia. }
  apply H in Hin. unfold tcoord_at in Hin; simpl fst in Hin.
  rewrite u_fraction in Hin by (simpl; lia). simpl in Hin. lra.
Qed.

(** The seam column of the 4 x 4 sphere: the vertex (4, 0), stored at
    position 20, has texture coordinate (1, 1). *)
Example ex_seam_tcoord_4x4 :
  lookup (TCoords (generate unit_sphere_4x4)) 20 = Some (1%R, 1%R).
Proof.
  change 20 with (vertex_id unit_sphere_4x4 4 0).
  rewrite lookup_TCoords by (simpl; lia). unfold tcoord_at.
  rewrite u_fraction, v_fraction by (simpl; lia). simpl.
  f_equal. f_equal; lra.
Qed.

(** C6, amended: for a valid source the texture coordinate u does not
    decrease when the longitude index i grows, and every stored u lies in
    the closed interval [0, 1]: u is 0 in the column i = 0 and 1 in the
    seam column i = thetaResolution, for every row. *)
Theorem C6_u_monotone_closed (this : vtkTexturedSphereSource) :
  valid_spec this ->
  (forall i1 i2 j1 j2,
      0 <= i1 -> i1 <= i2 -> i2 <= ThetaResolution this ->
      0 <= j1 <= PhiResolution this -> 0 <= j2 <= PhiResolution this ->
      exists t1 t2,
        lookup (TCoords (generate this)) (vertex_id this i1 j1) = Some t1 /\
        lookup (TCoords (generate this)) (vertex_id this i2 j2) = Some t2 /\
        (fst t1 <= fst t2)%R) /\
  Forall (fun tc : vec2 => (0 <= fst tc <= 1)%R) (TCoords (generate this)) /\
  (forall j,
      0 <= j <= PhiResolution this ->
      exists v,
        lookup (TCoords (generate this)) (vertex_id this 0 j)
        = Some (0%R, v) /\
        lookup (TCoords (generate this))
          (vertex_id this (ThetaResolution this) j) = Some (1%R, v)).
Proof.
  intros (_ & Ht & Hp).
  assert (HT : (0 < IZR (ThetaResolution this))%R) by (apply IZR_lt; lia).
  assert (Hu : forall i, 0 <= i <= ThetaResolution this ->
             (0 <= IZR i / IZR (ThetaResolution this) <= 1)%R).
  { intros i [Hi0 Hi1]. apply IZR_le in Hi0, Hi1. split.
    - apply Rmult_le_pos; [lra | left; now apply Rinv_0_lt_compat].
    - apply (Rmult_le_reg_r (IZR (ThetaResolution this))); [lra|].
      unfold Rdiv. rewrite Rmult_assoc, Rinv_l by lra. lra. }
  split; [| split].
  - intros i1 i2 j1 j2 H1 H12 H2 Hj1 Hj2.
    exists (tcoord_at this i1 j1), (tcoord_at this i2 j2).
    rewrite !lookup_TCoords by lia. repeat split.
    unfold tcoord_at; simpl fst. rewrite !u_fraction by lia.
    apply IZR_le in H12. unfold Rdiv.
    apply Rmult_le_compat_r; [left; now apply Rinv_0_lt_compat | exact H12].
  - rewrite generate_TCoords.
    apply Forall_flat_map, Forall_forall. intros i Hi.
    apply Forall_map, Forall_forall. intros j _.
    apply zrange_In in Hi. unfold tcoord_at; simpl fst.
    rewrite u_fraction by lia. apply Hu. lia.
  - intros j Hj. exists (1.0 - phi_at this j / Pi)%R.
    rewrite !lookup_TCoords by lia. unfold tcoord_at.
    rewrite !u_fraction by lia.
    split; f_equal; f_equal; field; lra.
Qed.

Lemma C6_u_monotone_closed_witness :
  valid_spec unit_sphere_4x4 /\
  Forall (fun tc : vec2 => (0 <= fst tc <= 1)%R)
    (TCoords (generate unit_sphere_4x4)).
Proof.
  split; [exact unit_sphere_4x4_valid |].
  exact (proj1 (proj2 (C6_u_monotone_closed unit_sphere_4x4
                         unit_sphere_4x4_valid))).
Defined.

(** ** The 4 x 4 unit sphere *)

(** C7: the source of radius 1.0 and resolutions 4 and 4 yields 25 points
    and 32 triangles; the vertex i = 0, j = 0 is the point (0, 0, 1) with
    normal (0, 0, 1), and the divisor of that normal is the norm of the
    point, 1, which is not zero. *)
Theorem C7_unit_sphere_4x4 :
  length (Points (generate unit_sphere_4x4)) = 25%nat /\
  length (Polys (generate unit_sphere_4x4)) = 32%nat /\
  lookup (Points (generate unit_sphere_4x4)) (vertex_id unit_sphere_4x4 0 0)
  = Some (0%R, 0%R, 1%R) /\
  lookup (Normals (generate unit_sphere_4x4)) (vertex_id unit_sphere_4x4 0 0)
  = Some (0%R, 0%R, 1%R) /\
  Norm (0%R, 0%R, 1%R) = 1%R /\
  divisor (0%R, 0%R, 1%R) = Norm (0%R, 0%R, 1%R).
Proof.
  assert (Hpt : point_at unit_sphere_4x4 0 0 = (0%R, 0%R, 1%R)).
  { unfold point_at, phi_at, theta_at.
    rewrite !Rmult_0_l, sin_0, cos_0. simpl Radius. rewrite lit_1.
    f_equal; [f_equal |]; ring. }
  assert (Hr : (0 < Radius unit_sphere_4x4)%R) by (simpl; lra).
  pose proof (Norm_point_at_valid unit_sphere_4x4 Hr 0 0) as HN.
  pose proof (divisor_point_at_valid unit_sphere_4x4 Hr 0 0) as HD.
  rewrite Hpt in HN, HD. simpl Radius in HN, HD. rewrite lit_1 in HN, HD.
  pose proof (Points_length unit_sphere_4x4 ltac:(simpl; lia)
                ltac:(simpl; lia)) as HP.
  pose proof (Polys_length unit_sphere_4x4 ltac:(simpl; lia)
                ltac:(simpl; lia)) as HC.
  change (numPts unit_sphere_4x4) with 25 in HP.
  change (numPolys unit_sphere_4x4) with 32 in HC.
  split; [lia | split; [lia | split; [| split; [| split]]]].
  - rewrite lookup_Points by (simpl; lia). now rewrite Hpt.
  - rewrite lookup_Normals by (simpl; lia).
    unfold normal_at. rewrite Hpt, HD. f_equal.
    f_equal; [f_equal |]; field.
  - exact HN.
  - now rewrite HD, HN.
Qed.

(** ** Construction and validation *)

(** C8: for every [res] the constructor stores max(res, 4) as both
    resolutions; [RequestData] does not clamp again: whatever resolutions
    the source holds, below 4 included, the sizes of the mesh follow
    them. *)
Theorem C8_clamp_at_construction (res : Z) :
  ThetaResolution (New res) = Z.max res 4 /\
  PhiResolution (New res) = Z.max res 4 /\
  forall this : vtkTexturedSphereSource,
    0 <= ThetaResolution this -> 0 <= PhiResolution this ->
    Z.of_nat (length (Points (generate this)))
    = (PhiResolution this + 1) * (ThetaResolution this + 1) /\
    Z.of_nat (length (Polys (generate this)))
    = 2 * PhiResolution this * ThetaResolution this.
Proof.
  split; [| split].
  - unfold New. cbn [ThetaResolution]. destruct (Z.ltb_spec res 4); lia.
  - unfold New. cbn [PhiResolution]. destruct (Z.ltb_spec res 4); lia.
  - intros this Ht Hp. rewrite Points_length, Polys_length by lia.
    unfold numPts, numPolys. split; lia.
Qed.

Lemma C8_clamp_at_construction_witness :
  ThetaResolution (New 1) = 4 /\
  PhiResolution (New 1) = 4 /\
  0 <= ThetaResolution coarse_sphere_2x2 /\
  0 <= PhiResolution coarse_sphere_2x2 /\
  Z.of_nat (length (Points (generate coarse_sphere_2x2))) = 9 /\
  Z.of_nat (length (Polys (generate coarse_sphere_2x2))) = 8.
Proof.
  destruct (C8_clamp_at_construction 1) as (Ht & Hp & Hgen).
  split; [exact Ht | split; [exact Hp |]].
  split; [simpl; lia | split; [simpl; lia |]].
  apply (Hgen coarse_sphere_2x2); simpl; lia.
Defined.

(** ** Completion *)

Lemma int_of_in_range z : INT_MIN <= z <= INT_MAX -> int_of z = Returned z.
Proof.
  intros [H0 H1]. unfold int_of.
  apply Z.leb_le in H0, H1. now rewrite H0, H1.
Qed.

Lemma int_of_overflow z : INT_MAX < z -> int_of z = Undefined.
Proof.
  intros H. unfold int_of. apply Z.leb_gt in H. rewrite H.
  now rewrite Bool.andb_false_r.
Qed.

(** A loop whose test holds below [hi] and fails at [hi], whose body
    returns, and whose counter stays an [int], returns the result of its
    [hi - i] turns when it has more fuel than turns. *)
Lemma for_run_returns {St : Type} (test : Z -> bool)
    (body : Z -> St -> outcome St) (f : Z -> St -> St) (hi : Z) :
  (forall i s, 0 <= i < hi -> test i = true /\ body i s = Returned (f i s)) ->
  test hi = false -> hi <= INT_MAX ->
  forall (n : nat) i s fuel,
    0 <= i -> Z.of_nat n = hi - i -> (n < fuel)%nat ->
    for_run fuel test body i s = Returned (run f (zrange i n) s).
Proof.
  intros Hbody Hexit Hmax. induction n as [|n IH]; intros i s fuel Hi Hn Hfuel;
    (destruct fuel as [|fuel]; [lia |]); cbn [for_run zrange run].
  - replace i with hi by lia. now rewrite Hexit.
  - destruct (Hbody i s ltac:(lia)) as [Htest Hb]. rewrite Htest, Hb.
    cbn [bind]. unfold int_add.
    rewrite int_of_in_range by (unfold INT_MIN, INT_MAX in *; lia).
    cbn [bind]. apply IH; lia.
Qed.

Lemma cell_body_run_returns this i j o :
  0 <= i < ThetaResolution this -> 0 <= j < PhiResolution this ->
  numPts this <= INT_MAX ->
  cell_body_run this i j o = Returned (cell_body this i j o).
Proof.
  intros Hi Hj Hmax. unfold numPts in Hmax.
  unfold cell_body_run, int_add, int_mul.
  repeat (rewrite int_of_in_range by (unfold INT_MIN, INT_MAX in *; nia);
          cbn [bind]).
  reflexivity.
Qed.

(** When 3*numPts fits an [int], no [int] expression of [RequestData]
    overflows, the four loops leave through their tests, and the run
    returns 1 with the mesh of [generate]. *)
Lemma RequestData_run_returns this fuel :
  0 <= ThetaResolution this -> 0 <= PhiResolution this ->
  3 * numPts this <= INT_MAX ->
  (Z.to_nat (Z.max (ThetaResolution this) (PhiResolution this)) + 1 < fuel)%nat ->
  RequestData_run fuel this = Returned (1, generate this).
Proof.
  intros Ht Hp Hmax Hfuel. unfold numPts in Hmax.
  assert (Hcol : forall i o,
             column_loop_run fuel this i o = Returned (column_body this i o)).
  { intros i o. rewrite column_body_run. unfold column_loop_run, rows.
    apply (for_run_returns _ _ _ (PhiResolution this + 1));
      try lia; try (unfold INT_MAX in *; nia).
    intros j s Hj. split; [apply Z.leb_le; lia | reflexivity]. }
  assert (Hband : forall i o, 0 <= i < ThetaResolution this ->
             band_loop_run fuel this i o = Returned (band_body this i o)).
  { intros i o Hi. rewrite band_body_run. unfold band_loop_run, row_bands.
    apply (for_run_returns _ _ _ (PhiResolution this));
      try lia; try (unfold INT_MAX in *; nia).
    intros j s Hj. split; [apply Z.ltb_lt; lia |].
    apply cell_body_run_returns; try lia. unfold numPts. lia. }
  unfold RequestData_run, int_add, int_mul.
  repeat (rewrite int_of_in_range by (unfold INT_MIN, INT_MAX in *; nia);
          cbn [bind]).
  assert (Hc1 : forall i s, 0 <= i < ThetaResolution this + 1 ->
            (i <=? ThetaResolution this) = true /\
            column_loop_run fuel this i s = Returned (column_body this i s))
    by (intros i s Hi; split; [apply Z.leb_le; lia | apply Hcol]).
  assert (Hc2 : (ThetaResolution this + 1 <=? ThetaResolution this) = false)
    by (apply Z.leb_gt; lia).
  assert (Hc3 : ThetaResolution this + 1 <= INT_MAX)
    by (unfold INT_MAX in *; nia).
  rewrite (for_run_returns (fun i => i <=? ThetaResolution this)
             (column_loop_run fuel this) (column_body this)
             (ThetaResolution this + 1) Hc1 Hc2 Hc3
             (Z.to_nat (ThetaResolution this + 1))) by lia.
  cbn [bind].
  assert (Hb1 : forall i s, 0 <= i < ThetaResolution this ->
            (i <? ThetaResolution this) = true /\
            band_loop_run fuel this i s = Returned (band_body this i s))
    by (intros i s Hi; split; [apply Z.ltb_lt; lia | now apply Hband]).
  assert (Hb2 : (ThetaResolution this <? ThetaResolution this) = false)
    by (apply Z.ltb_ge; lia).
  assert (Hb3 : ThetaResolution this <= INT_MAX)
    by (unfold INT_MAX in *; nia).
  rewrite (for_run_returns (fun i => i <? ThetaResolution this)
             (band_loop_run fuel this) (band_body this)
             (ThetaResolution this) Hb1 Hb2 Hb3
             (Z.to_nat (ThetaResolution this))) by lia.
  cbn [bind]. now rewrite generate_run.
Qed.

(** The fuel counts the turns of the source's loops: the 4 x 4 sphere,
    whose longest loops make 5 turns and one more test, returns with fuel
    6 and is still running with fuel 5. *)
Example ex_run_fuel_4x4 :
  RequestData_run 5 unit_sphere_4x4 = OutOfFuel /\
  RequestData_run 6 unit_sphere_4x4 = Returned (1, generate unit_sphere_4x4).
Proof.
  split; [vm_compute; reflexivity |].
  apply RequestData_run_returns; unfold numPts, INT_MAX; simpl; lia.
Qed.

(** When 3*numPts does not fit an [int], an [int] expression of lines 70
    to 94 overflows before the first loop, whatever the fuel. *)
Lemma RequestData_run_overflows this fuel :
  0 <= ThetaResolution this -> 0 <= PhiResolution this ->
  INT_MAX < 3 * numPts this ->
  RequestData_run fuel this = Undefined.
Proof.
  intros Ht Hp Hbig. unfold numPts in Hbig.
  unfold RequestData_run, int_add, int_mul, int_of.
  do 5 (match goal with
        | |- bind (if ?c then _ else _) _ = _ =>
            destruct c; cbn [bind]; [| reflexivity]
        end).
  match goal with
  | |- bind (if ?c then _ else _) _ = _ => destruct c eqn:E; [| reflexivity]
  end.
  apply andb_prop in E. destruct E as [_ E]. apply Z.leb_le in E. lia.
Qed.

(** With the resolution 2147483647 the test of the first loop holds for
    every value of an [int] counter: that loop cannot leave through its
    test. *)
Lemma first_loop_test_int_max i :
  in_int i -> (i <=? ThetaResolution (New 2147483647)) = true.
Proof. unfold in_int, INT_MAX. intros H. apply Z.leb_le. simpl. lia. Qed.

(** C9, as stated, fails: the constructor accepts the resolution
    2147483647, a valid one, and [RequestData] then overflows the [int]
    type in its first expression, [PhiResolution + 1] (line 70): the run
    does not return 1. *)
Lemma C9_int_max_counterexample :
  valid_spec (New 2147483647) /\ ~ completes (New 2147483647).
Proof.
  split.
  - unfold valid_spec, valid_resolutions; simpl. split; [lra | lia].
  - intros (fuel & o & H).
    assert (Hu : RequestData_run fuel (New 2147483647) = Undefined)
      by reflexivity.
    rewrite Hu in H. discriminate H.
Qed.

(** C9, amended: for a valid source whose sizes fit the [int] type
    (3*numPts at most 2147483647), [RequestData] has no error branch: no
    [int] expression overflows, each of the four loops leaves through its
    test, and the run returns 1 with the generated mesh, as soon as the
    fuel exceeds the larger resolution plus one. *)
Theorem C9_completes_in_int_range (this : vtkTexturedSphereSource)
    (fuel : nat) :
  valid_spec this ->
  3 * numPts this <= INT_MAX ->
  (Z.to_nat (Z.max (ThetaResolution this) (PhiResolution this)) + 1 < fuel)%nat ->
  RequestData_run fuel this = Returned (1, generate this) /\
  completes this.
Proof.
  intros (_ & Ht & Hp) Hmax Hfuel.
  assert (H : RequestData_run fuel this = Returned (1, generate this))
    by (apply RequestData_run_returns; lia).
  split; [exact H |]. exists fuel, (generate this). exact H.
Qed.

Lemma C9_completes_in_int_range_witness :
  valid_spec unit_sphere_4x4 /\
  3 * numPts unit_sphere_4x4 <= INT_MAX /\
  (Z.to_nat (Z.max 4 4) + 1 < 6)%nat /\
  RequestData_run 6 unit_sphere_4x4 = Returned (1, generate unit_sphere_4x4) /\
  completes unit_sphere_4x4.
Proof.
  assert (Hm : 3 * numPts unit_sphere_4x4 <= INT_MAX)
    by (unfold numPts, INT_MAX; simpl; lia).
  assert (Hf : (Z.to_nat (Z.max 4 4) + 1 < 6)%nat) by (simpl; lia).
  split; [exact unit_sphere_4x4_valid | split; [exact Hm | split; [exact Hf |]]].
  exact (C9_completes_in_int_range unit_sphere_4x4 6 unit_sphere_4x4_valid
           Hm Hf).
Defined.

(** ** Range of the int expressions *)

(** X20: with valid resolutions the run of [RequestData] is free of
    signed overflow exactly when 3*numPts, the size passed to [Allocate]
    for the normals, fits an [int]: it then returns with enough fuel, and
    otherwise stops on an overflow before the first loop, whatever the
    fuel. *)
Theorem X20_overflow_threshold (this : vtkTexturedSphereSource) :
  valid_resolutions this ->
  (completes this <-> 3 * numPts this <= INT_MAX) /\
  (INT_MAX < 3 * numPts this ->
   forall fuel, RequestData_run fuel this = Undefined).
Proof.
  intros (Ht & Hp).
  assert (Hover : INT_MAX < 3 * numPts this ->
            forall fuel, RequestData_run fuel this = Undefined).
  { intros Hbig fuel. apply RequestData_run_overflows; lia. }
  split; [| exact Hover]. split.
  - intros (fuel & o & H).
    destruct (Z_le_gt_dec (3 * numPts this) INT_MAX) as [Hle | Hgt];
      [exact Hle |].
    rewrite (Hover ltac:(lia) fuel) in H. discriminate H.
  - intros Hle.
    exists (S (S (Z.to_nat (Z.max (ThetaResolution this)
                               (PhiResolution this)) + 1))),
           (generate this).
    apply RequestData_run_returns; lia.
Qed.

Lemma X20_overflow_threshold_witness :
  valid_resolutions (New 32767) /\
  (completes (New 32767) <-> 3 * numPts (New 32767) <= INT_MAX) /\
  (INT_MAX < 3 * numPts (New 32767) ->
   forall fuel, RequestData_run fuel (New 32767) = Undefined).
Proof.
  assert (Hv : valid_resolutions (New 32767))
    by (unfold valid_resolutions; simpl; lia).
  split; [exact Hv |]. exact (X20_overflow_threshold (New 32767) Hv).
Defined.

(** ** Further properties of the generated mesh *)

Lemma Forall_grid {B : Type} (P : B -> Prop) (f : Z -> Z -> B) (n m : nat) :
  (forall i j, 0 <= i < Z.of_nat n -> 0 <= j < Z.of_nat m -> P (f i j)) ->
  Forall P (flat_map (fun i => map (f i) (zrange 0 m)) (zrange 0 n)).
Proof.
  intros H. apply Forall_flat_map, Forall_forall. intros i Hi.
  apply Forall_map, Forall_forall. intros j Hj.
  apply zrange_In in Hi, Hj. apply H; lia.
Qed.

Lemma point_at_zero_radius this i j :
  Radius this = 0%R -> point_at this i j = (0%R, 0%R, 0%R).
Proof.
  intros H. unfold point_at. rewrite H.
  f_equal; [f_equal |]; ring.
Qed.

Lemma Norm_zero : Norm (0%R, 0%R, 0%R) = 0%R.
Proof.
  unfold Norm. replace (0 * 0 + 0 * 0 + 0 * 0)%R with 0%R by ring.
  apply sqrt_0.
Qed.

Lemma normal_at_zero_radius this i j :
  Radius this = 0%R -> normal_at this i j = (0%R, 0%R, 0%R).
Proof.
  intros H. unfold normal_at. rewrite (point_at_zero_radius this i j H).
  destruct (divisor_spec (0%R, 0%R, 0%R)) as [Hd _].
  rewrite (Hd Norm_zero). f_equal; [f_equal |]; field.
Qed.

(** X4: with radius 0 and both resolutions positive the zero-norm guard
    is taken at every vertex: every point is the origin, its divisor is
    the substituted 1.0, and every normal is the zero vector (0 divided by
    1.0). *)
Theorem X4_zero_radius (this : vtkTexturedSphereSource) :
  Radius this = 0%R ->
  0 < ThetaResolution this -> 0 < PhiResolution this ->
  Forall (fun p => p = (0%R, 0%R, 0%R) /\ divisor p = 1%R)
    (Points (generate this)) /\
  Forall (fun n => n = (0%R, 0%R, 0%R)) (Normals (generate this)).
Proof.
  intros H _ _. split.
  - rewrite generate_Points. apply Forall_grid. intros i j _ _.
    rewrite (point_at_zero_radius this i j H). split; [reflexivity |].
    apply (proj1 (divisor_spec _)), Norm_zero.
  - rewrite generate_Normals. apply Forall_grid. intros i j _ _.
    now apply normal_at_zero_radius.
Qed.

Lemma X4_zero_radius_witness :
  Radius zero_sphere_4x4 = 0%R /\ 0 < 4 /\ 0 < 4 /\
  Forall (fun p => p = (0%R, 0%R, 0%R) /\ divisor p = 1%R)
    (Points (generate zero_sphere_4x4)) /\
  Forall (fun n => n = (0%R, 0%R, 0%R)) (Normals (generate zero_sphere_4x4)).
Proof.
  split; [exact lit_0 | split; [lia | split; [lia |]]].
  apply (X4_zero_radius zero_sphere_4x4); [exact lit_0 | simpl; lia ..].
Defined.

(** ** The row j = 0 *)

Lemma phi_at_0 this : phi_at this 0 = 0%R.
Proof. unfold phi_at. apply Rmult_0_l. Qed.

(** ** Positions and vertices *)

(** Every position below the number of points is that of a vertex whose
    indices are in the ranges of the loops. *)
Lemma position_decode this k :
  0 <= PhiResolution this -> 0 <= k < numPts this ->
  exists i j, 0 <= i <= ThetaResolution this /\ 0 <= j <= PhiResolution this /\
              vertex_id this i j = k.
Proof.
  intros Hp [Hk0 Hk1]. unfold numPts in Hk1.
  exists (k / (PhiResolution this + 1)), (k mod (PhiResolution this + 1)).
  pose proof (Z.div_mod k (PhiResolution this + 1) ltac:(lia)) as Hdm.
  pose proof (Z.mod_pos_bound k (PhiResolution this + 1) ltac:(lia)) as Hmod.
  pose proof (Z.div_pos k (PhiResolution this + 1) Hk0 ltac:(lia)) as Hd0.
  pose proof (Z.div_lt_upper_bound k (PhiResolution this + 1)
                (ThetaResolution this + 1) ltac:(lia) Hk1) as Hd1.
  unfold vertex_id. repeat split; lia.
Qed.

(** ** Connectivity and the grid of vertices *)

Lemma In_Polys this c :
  In c (Polys (generate this)) <->
  exists i j, 0 <= i < ThetaResolution this /\ 0 <= j < PhiResolution this /\
              In c (cells_at this i j).
Proof.
  rewrite generate_Polys, in_flat_map. unfold column_bands, row_bands. split.
  - intros (i & Hi & Hc). apply in_flat_map in Hc. destruct Hc as (j & Hj & Hc).
    apply zrange_In in Hi, Hj. exists i, j. repeat split; try lia. exact Hc.
  - intros (i & j & Hi & Hj & Hc). exists i. split.
    + apply zrange_In. lia.
    + apply in_flat_map. exists j. split; [apply zrange_In; lia | exact Hc].
Qed.

(** X8: the two triangles of the quad cell (i, j) join the vertices
    (i, j), (i, j+1), (i+1, j+1) and (i, j), (i+1, j+1), (i+1, j) of the
    grid, in this order; their corners are the points generated for these
    vertices.  A triangle never joins vertices of columns that are not
    adjacent: the last band uses the seam column, not the column 0. *)
Theorem X8_triangle_corners (this : vtkTexturedSphereSource) (i j : Z) :
  0 <= i < ThetaResolution this -> 0 <= j < PhiResolution this ->
  exists A B,
    lookup (Polys (generate this)) (cell_id this i j 0) = Some A /\
    lookup (Polys (generate this)) (cell_id this i j 1) = Some B /\
    cell_ids A = [vertex_id this i j; vertex_id this i (j + 1);
                  vertex_id this (i + 1) (j + 1)] /\
    cell_ids B = [vertex_id this i j; vertex_id this (i + 1) (j + 1);
                  vertex_id this (i + 1) j] /\
    corner_points (generate this) A
    = [Some (point_at this i j); Some (point_at this i (j + 1));
       Some (point_at this (i + 1) (j + 1))] /\
    corner_points (generate this) B
    = [Some (point_at this i j); Some (point_at this (i + 1) (j + 1));
       Some (point_at this (i + 1) j)].
Proof.
  intros Hi Hj.
  exists (vertex_id this i j, vertex_id this i (j + 1),
          vertex_id this (i + 1) (j + 1)),
         (vertex_id this i j, vertex_id this (i + 1) (j + 1),
          vertex_id this (i + 1) j).
  rewrite !lookup_Polys by lia.
  unfold corner_points. cbn [cell_ids map].
  rewrite !lookup_Points by lia.
  change (Z.to_nat 0) with 0%nat. change (Z.to_nat 1) with 1%nat.
  unfold cells_at, vertex_id. cbn [nth_error].
  repeat split; repeat (f_equal; try lia).
Qed.

Lemma X8_triangle_corners_witness :
  0 <= 3 < 4 /\ 0 <= 1 < 4 /\
  exists A B,
    lookup (Polys (generate unit_sphere_4x4)) 26 = Some A /\
    lookup (Polys (generate unit_sphere_4x4)) 27 = Some B /\
    cell_ids A = [16; 17; 22] /\ cell_ids B = [16; 22; 21] /\
    corner_points (generate unit_sphere_4x4) A
    = [Some (point_at unit_sphere_4x4 3 1); Some (point_at unit_sphere_4x4 3 2);
       Some (point_at unit_sphere_4x4 4 2)] /\
    corner_points (generate unit_sphere_4x4) B
    = [Some (point_at unit_sphere_4x4 3 1); Some (point_at unit_sphere_4x4 4 2);
       Some (point_at unit_sphere_4x4 4 1)].
Proof.
  split; [lia | split; [lia |]].
  apply (X8_triangle_corners unit_sphere_4x4 3 1); simpl; lia.
Defined.

(** X9: the three point ids of every emitted triangle are pairwise
    different, for any resolutions. *)
Theorem X9_triangle_ids_distinct (this : vtkTexturedSphereSource) :
  Forall (fun c => NoDup (cell_ids c)) (Polys (generate this)).
Proof.
  apply Forall_forall. intros c Hc.
  apply In_Polys in Hc. destruct Hc as (i & j & Hi & Hj & Hc).
  unfold cells_at in Hc. cbn [In] in Hc.
  destruct Hc as [<- | [<- | []]]; cbn [cell_ids];
    repeat (apply NoDup_cons; [cbn [In]; lia |]); apply NoDup_nil.
Qed.

(** X10: in every longitude band the second triangle of the top cell
    (j = 0) has two different ids, the first and the last, that refer to
    the same point, the north pole (0, 0, radius): the triangle has no
    area.  This holds for any radius and any resolutions. *)
Theorem X10_north_pole_triangles (this : vtkTexturedSphereSource) (i : Z) :
  0 <= i < ThetaResolution this -> 0 < PhiResolution this ->
  exists a b c,
    lookup (Polys (generate this)) (cell_id this i 0 1) = Some (a, b, c) /\
    a <> c /\
    lookup (Points (generate this)) a = Some (0%R, 0%R, Radius this) /\
    lookup (Points (generate this)) c = Some (0%R, 0%R, Radius this).
Proof.
  intros Hi Hp.
  assert (Hpole : forall i', point_at this i' 0 = (0%R, 0%R, Radius this)).
  { intros i'. unfold point_at. rewrite phi_at_0, sin_0, cos_0.
    f_equal; [f_equal |]; ring. }
  exists (vertex_id this i 0), (vertex_id this (i + 1) 1),
         (vertex_id this (i + 1) 0).
  rewrite !lookup_Points, !Hpole by lia.
  rewrite lookup_Polys by lia. change (Z.to_nat 1) with 1%nat.
  unfold cells_at, vertex_id. cbn [nth_error].
  repeat split; try lia. repeat (f_equal; try lia).
Qed.

Lemma X10_north_pole_triangles_witness :
  0 <= 1 < 4 /\ 0 < 4 /\
  exists a b c,
    lookup (Polys (generate unit_sphere_4x4)) 9 = Some (a, b, c) /\
    a <> c /\
    lookup (Points (generate unit_sphere_4x4)) a = Some (0%R, 0%R, 1.0%R) /\
    lookup (Points (generate unit_sphere_4x4)) c = Some (0%R, 0%R, 1.0%R).
Proof.
  split; [lia | split; [lia |]].
  apply (X10_north_pole_triangles unit_sphere_4x4 1); simpl; lia.
Defined.

(** X12: with both resolutions positive no point is left unused: every
    position below the number of points is an id of some emitted
    triangle. *)
Theorem X12_every_point_used (this : vtkTexturedSphereSource) (k : Z) :
  0 < ThetaResolution this -> 0 < PhiResolution this ->
  0 <= k < numPts this ->
  exists c, In c (Polys (generate this)) /\ In k (cell_ids c).
Proof.
  intros Ht Hp Hk.
  destruct (position_decode this k ltac:(lia) Hk) as (i & j & Hi & Hj & <-).
  unfold vertex_id.
  destruct (Z_lt_dec i (ThetaResolution this)) as [Hil | Hil];
    destruct (Z_lt_dec j (PhiResolution this)) as [Hjl | Hjl].
  - exists ((PhiResolution this + 1) * i + j,
            (PhiResolution this + 1) * i + j + 1,
            (PhiResolution this + 1) * (i + 1) + j + 1).
    split; [| now left].
    apply In_Polys. exists i, j. repeat split; try lia. now left.
  - exists ((PhiResolution this + 1) * i + (j - 1),
            (PhiResolution this + 1) * i + (j - 1) + 1,
            (PhiResolution this + 1) * (i + 1) + (j - 1) + 1).
    split; [| right; left; lia].
    apply In_Polys. exists i, (j - 1). repeat split; try lia. now left.
  - exists ((PhiResolution this + 1) * (i - 1) + j,
            (PhiResolution this + 1) * (i - 1 + 1) + j + 1,
            (PhiResolution this + 1) * (i - 1 + 1) + j + 1 - 1).
    split; [| right; right; left; lia].
    apply In_Polys. exists (i - 1), j. repeat split; try lia.
    right; now left.
  - exists ((PhiResolution this + 1) * (i - 1) + (j - 1),
            (PhiResolution this + 1) * (i - 1) + (j - 1) + 1,
            (PhiResolution this + 1) * (i - 1 + 1) + (j - 1) + 1).
    split; [| right; right; left; lia].
    apply In_Polys. exists (i - 1), (j - 1). repeat split; try lia. now left.
Qed.

Lemma X12_every_point_used_witness :
  0 < 4 /\ 0 < 4 /\ 0 <= 24 < numPts unit_sphere_4x4 /\
  exists c, In c (Polys (generate unit_sphere_4x4)) /\ In 24 (cell_ids c).
Proof.
  split; [lia | split; [lia | split; [unfold numPts; simpl; lia |]]].
  apply (X12_every_point_used unit_sphere_4x4 24);
    unfold numPts; simpl; lia.
Defined.

Lemma zrange_NoDup lo n : NoDup (zrange lo n).
Proof.
  revert lo. induction n as [|n IH]; intros lo; simpl; constructor.
  - rewrite zrange_In. lia.
  - apply IH.
Qed.

Lemma NoDup_flat_map {A B : Type} (f : A -> list B) (l : list A) :
  NoDup l ->
  (forall x, In x l -> NoDup (f x)) ->
  (forall x y b, In x l -> In y l -> In b (f x) -> In b (f y) -> x = y) ->
  NoDup (flat_map f l).
Proof.
  induction l as [|x l IH]; intros Hl Hf Hdisj; simpl; [constructor |].
  apply NoDup_cons_iff in Hl. destruct Hl as [Hx Hl].
  apply NoDup_app.
  - apply Hf. now left.
  - apply IH; [exact Hl | intros; apply Hf; now right |].
    intros y z b Hy Hz. apply Hdisj; now right.
  - intros b Hb Hin. apply in_flat_map in Hin. destruct Hin as (y & Hy & Hby).
    assert (x = y) by (apply (Hdisj x y b); auto; [now left | now right]).
    subst y. contradiction.
Qed.

(** X16: no triangle is emitted twice: the cells of the generated mesh
    are pairwise different, for any resolutions. *)
Theorem X16_no_duplicate_triangle (this : vtkTexturedSphereSource) :
  NoDup (Polys (generate this)).
Proof.
  rewrite generate_Polys. unfold column_bands, row_bands.
  apply NoDup_flat_map.
  - apply zrange_NoDup.
  - intros i Hi. apply NoDup_flat_map.
    + apply zrange_NoDup.
    + intros j Hj. apply zrange_In in Hj. unfold cells_at.
      repeat (apply NoDup_cons; [cbn [In]; intros [H | H];
                                 [injection H; lia | exact H] |]).
      apply NoDup_cons; [cbn [In]; tauto | apply NoDup_nil].
    + intros j1 j2 c Hj1 Hj2 Hc1 Hc2. apply zrange_In in Hj1, Hj2.
      unfold cells_at in Hc1, Hc2. cbn [In] in Hc1, Hc2.
      destruct Hc1 as [<- | [<- | []]]; destruct Hc2 as [H | [H | []]];
        injection H; lia.
  - intros i1 i2 c Hi1 Hi2 Hc1 Hc2. apply zrange_In in Hi1, Hi2.
    apply in_flat_map in Hc1, Hc2.
    destruct Hc1 as (j1 & Hj1 & Hc1). destruct Hc2 as (j2 & Hj2 & Hc2).
    apply zrange_In in Hj1, Hj2.
    unfold cells_at in Hc1, Hc2. cbn [In] in Hc1, Hc2.
    destruct Hc1 as [<- | [<- | []]]; destruct Hc2 as [H | [H | []]];
      injection H; nia.
Qed.

(** ** What the mesh depends on *)

(** X14: the connectivity and the texture coordinates depend on the two
    resolutions only: two sources with the same resolutions, whatever
    their radius and their precision, give the same triangles and the
    same texture coordinates. *)
Theorem X14_resolutions_decide (a b : vtkTexturedSphereSource) :
  ThetaResolution a = ThetaResolution b ->
  PhiResolution a = PhiResolution b ->
  Polys (generate a) = Polys (generate b) /\
  TCoords (generate a) = TCoords (generate b).
Proof.
  intros Ht Hp. rewrite !generate_Polys, !generate_TCoords.
  unfold column_bands, row_bands, columns, rows, cells_at, tcoord_at,
    theta_at, phi_at, deltaTheta, deltaPhi.
  rewrite Ht, Hp. split; reflexivity.
Qed.

Lemma X14_resolutions_decide_witness :
  ThetaResolution unit_sphere_4x4 = ThetaResolution zero_sphere_4x4 /\
  PhiResolution unit_sphere_4x4 = PhiResolution zero_sphere_4x4 /\
  Polys (generate unit_sphere_4x4) = Polys (generate zero_sphere_4x4) /\
  TCoords (generate unit_sphere_4x4) = TCoords (generate zero_sphere_4x4).
Proof.
  split; [reflexivity | split; [reflexivity |]].
  apply (X14_resolutions_decide unit_sphere_4x4 zero_sphere_4x4); reflexivity.
Defined.

Lemma column_body_PointsDataType this i o :
  PointsDataType (column_body this i o) = PointsDataType o.
Proof.
  rewrite column_body_run. apply (run_preserves PointsDataType). reflexivity.
Qed.

Lemma band_body_PointsDataType this i o :
  PointsDataType (band_body this i o) = PointsDataType o.
Proof.
  rewrite band_body_run. apply (run_preserves PointsDataType). reflexivity.
Qed.

(** The data type chosen for the points before the loops is the one
    of the output: double exactly when the source asks for double
    precision, float otherwise; no turn of a loop changes it. *)
Lemma points_data_type (this : vtkTexturedSphereSource) :
  (PointsDataType (generate this) = VTK_DOUBLE <->
   OutputPointsPrecision this = DOUBLE_PRECISION) /\
  (PointsDataType (generate this) = VTK_FLOAT <->
   OutputPointsPrecision this <> DOUBLE_PRECISION).
Proof.
  rewrite generate_run.
  rewrite (run_preserves PointsDataType _ (band_body_PointsDataType this)).
  rewrite (run_preserves PointsDataType _ (column_body_PointsDataType this)).
  unfold newOutput; simpl.
  destruct (OutputPointsPrecision this); split; split; congruence.
Qed.

(** ** The constructor followed by RequestData *)

(** X6: a source made by the constructor is always a valid one, with
    radius 0.5 and single precision, and its mesh has (m+1)*(m+1) points
    and 2*m*m triangles for m = max(res, 4); every [res] up to 4 gives the
    same source as 4. *)
Theorem X6_constructed_source (res : Z) :
  let m := Z.max res 4 in
  valid_spec (New res) /\
  Radius (New res) = 0.5%R /\
  OutputPointsPrecision (New res) = SINGLE_PRECISION /\
  Z.of_nat (length (Points (generate (New res)))) = (m + 1) * (m + 1) /\
  Z.of_nat (length (Polys (generate (New res)))) = 2 * m * m /\
  New res = New m /\
  New (Z.min res 4) = New 4.
Proof.
  intros m.
  assert (Hth : ThetaResolution (New res) = m).
  { unfold New. cbn [ThetaResolution]. destruct (Z.ltb_spec res 4); lia. }
  assert (Hph : PhiResolution (New res) = m).
  { unfold New. cbn [PhiResolution]. destruct (Z.ltb_spec res 4); lia. }
  assert (Hm : 4 <= m) by lia.
  split; [| split; [reflexivity | split; [reflexivity | split; [| split; [| split]]]]].
  - unfold valid_spec, valid_resolutions. rewrite Hth, Hph.
    split; [simpl; lra | lia].
  - rewrite Points_length by (rewrite ?Hth, ?Hph; lia).
    unfold numPts. now rewrite Hth, Hph.
  - rewrite Polys_length by (rewrite ?Hth, ?Hph; lia).
    unfold numPolys. rewrite Hth, Hph. lia.
  - unfold New. destruct (Z.ltb_spec res 4); destruct (Z.ltb_spec m 4);
      try lia; f_equal; lia.
  - unfold New. destruct (Z.ltb_spec (Z.min res 4) 4); simpl;
      [reflexivity | f_equal; lia].
Qed.

(** ** Normals and points, sizes for any resolutions *)



(** X21: the sizes of the mesh for any stored resolutions: the loops run
    max(0, phiResolution+1) * max(0, thetaResolution+1) times for the
    points and max(0, phiResolution) * max(0, thetaResolution) times for
    the cells.  With a negative resolution the mesh is empty; with a
    resolution 0 it has points and no triangle. *)
Theorem X21_sizes_any_resolution (this : vtkTexturedSphereSource) :
  Z.of_nat (length (Points (generate this)))
  = Z.max 0 (PhiResolution this + 1) * Z.max 0 (ThetaResolution this + 1) /\
  length (Normals (generate this)) = length (Points (generate this)) /\
  length (TCoords (generate this)) = length (Points (generate this)) /\
  Z.of_nat (length (Polys (generate this)))
  = 2 * Z.max 0 (PhiResolution this) * Z.max 0 (ThetaResolution this).
Proof.
  rewrite generate_Points, generate_Normals, generate_TCoords, generate_Polys.
  unfold columns, rows, column_bands, row_bands.
  rewrite !(length_grid _ _ (Z.to_nat (PhiResolution this + 1)))
    by (intros; now rewrite length_map, zrange_length).
  rewrite (length_grid _ _ (Z.to_nat (PhiResolution this) * 2))
    by (intros; now rewrite (length_grid _ _ 2)).
  repeat split; nia.
Qed.


(** ** Rows, columns and positions *)

(** X13: with both resolutions positive, the z coordinate and the texture
    coordinate v of a vertex are those of every vertex of its row (they
    are computed from the latitude index alone), and its texture
    coordinate u is that of every vertex of its column. *)
Theorem X13_rows_and_columns (this : vtkTexturedSphereSource)
    (i1 i2 j1 j2 : Z) :
  0 < ThetaResolution this -> 0 < PhiResolution this ->
  0 <= i1 <= ThetaResolution this -> 0 <= i2 <= ThetaResolution this ->
  0 <= j1 <= PhiResolution this -> 0 <= j2 <= PhiResolution this ->
  exists p q t s r,
    lookup (Points (generate this)) (vertex_id this i1 j1) = Some p /\
    lookup (Points (generate this)) (vertex_id this i2 j1) = Some q /\
    snd p = snd q /\
    lookup (TCoords (generate this)) (vertex_id this i1 j1) = Some t /\
    lookup (TCoords (generate this)) (vertex_id this i2 j1) = Some s /\
    snd t = snd s /\
    lookup (TCoords (generate this)) (vertex_id this i1 j2) = Some r /\
    fst t = fst r.
Proof.
  intros _ _ Hi1 Hi2 Hj1 Hj2.
  exists (point_at this i1 j1), (point_at this i2 j1),
         (tcoord_at this i1 j1), (tcoord_at this i2 j1),
         (tcoord_at this i1 j2).
  rewrite !lookup_Points, !lookup_TCoords by assumption.
  repeat split.
Qed.

Lemma X13_rows_and_columns_witness :
  0 < 4 /\ 0 < 4 /\
  exists p q t s r,
    lookup (Points (generate unit_sphere_4x4)) 2 = Some p /\
    lookup (Points (generate unit_sphere_4x4)) 17 = Some q /\
    snd p = snd q /\
    lookup (TCoords (generate unit_sphere_4x4)) 2 = Some t /\
    lookup (TCoords (generate unit_sphere_4x4)) 17 = Some s /\
    snd t = snd s /\
    lookup (TCoords (generate unit_sphere_4x4)) 4 = Some r /\
    fst t = fst r.
Proof.
  split; [lia | split; [lia |]].
  apply (X13_rows_and_columns unit_sphere_4x4 0 3 2 4); simpl; lia.
Defined.



(** ** The same expressions in IEEE arithmetic *)

(** On the row j = 0 the computed v is exactly 1; on the last row it is
    exactly 0 for the resolution 4, but for the resolution 25 the product
    25 * (pi / 25) is not the [double] pi and v is negative, in [double]
    and as the stored [float]. *)
Lemma IEEE_last_row_v :
  IEEE.tc1 25 0 = IEEE.of_int 1 /\
  IEEE.tc1 4 4 = IEEE.of_int 0 /\
  PrimFloat.ltb (IEEE.tc1 25 25) (IEEE.of_int 0) = true /\
  PrimFloat.ltb (IEEE.to_float (IEEE.tc1 25 25)) (IEEE.of_int 0) = true.
Proof. vm_compute. repeat split. Qed.

(** With the resolution 2^25 the computed u of the column before the seam
    is below 1, but it is stored as the [float] 1, as the u of the seam
    column is: stored texture coordinates of neighbouring columns can be
    equal. *)
Lemma IEEE_stored_u_ties :
  PrimFloat.ltb (IEEE.tc0 33554432 33554431) (IEEE.of_int 1) = true /\
  IEEE.to_float (IEEE.tc0 33554432 33554431) = IEEE.of_int 1 /\
  IEEE.to_float (IEEE.tc0 33554432 33554432) = IEEE.of_int 1.
Proof. vm_compute. repeat split. Qed.

(** With the resolution 25 the u computed for the seam column is above 1
    in [double]; the stored [float] is 1. *)
Lemma IEEE_seam_u_25 :
  PrimFloat.ltb (IEEE.of_int 1) (IEEE.tc0 25 25) = true /\
  IEEE.to_float (IEEE.tc0 25 25) = IEEE.of_int 1 /\
  IEEE.tc0 25 0 = IEEE.of_int 0.
Proof. vm_compute. repeat split. Qed.

(** The normal of the pole point (0, 0, radius).  For the radius 1 it is
    (0, 0, 1).  For the radius 1e-200 the square of the radius underflows,
    the norm is 0, the guard is taken and the normal is the point itself,
    which is stored as the [float] 0.  For the radius 1e200 the norm is
    infinite and the normal is the zero vector. *)
Lemma IEEE_pole_normals :
  IEEE.normal (IEEE.of_int 0, IEEE.of_int 0, IEEE.of_int 1)
  = (IEEE.of_int 0, IEEE.of_int 0, IEEE.of_int 1) /\
  IEEE.Norm (IEEE.of_int 0, IEEE.of_int 0, IEEE.tiny_radius) = IEEE.of_int 0 /\
  IEEE.normal (IEEE.of_int 0, IEEE.of_int 0, IEEE.tiny_radius)
  = (IEEE.of_int 0, IEEE.of_int 0, IEEE.tiny_radius) /\
  IEEE.to_float IEEE.tiny_radius = IEEE.of_int 0 /\
  IEEE.Norm (IEEE.of_int 0, IEEE.of_int 0, IEEE.huge_radius)
  = PrimFloat.infinity /\
  IEEE.normal (IEEE.of_int 0, IEEE.of_int 0, IEEE.huge_radius)
  = (IEEE.of_int 0, IEEE.of_int 0, IEEE.of_int 0).
Proof. vm_compute. repeat split. Qed.
